(** * SmartCrowd OS: the incident feed of [app.py]

    A shallow embedding of the stateful part of the Streamlit script
    [src/app.py]: the alert list kept in [st.session_state] (lines 28-32),
    the "Simulate Critical Surge" button handler (lines 116-118) and the
    loop that renders the first six alerts (lines 120-123).

    The script is modelled as a small state-and-error monad over a [World]
    made of the session dictionary and the elements written to the page.
    The static panels of the other navigation targets hold no state and are
    left out: of all the elements of the page, only the status boxes that
    the loop of the incident feed writes are recorded. *)

From stdpp Require Import gmap strings list.
From Stdlib Require Import ZArith.

(** ** Data *)

(** An alert is a dict literal with the three string keys ['time'], ['msg']
    and ['type']; the severity tag is an untyped string in the source. *)
Record Alert := mkAlert { time : string; msg : string; type : string }.

(** What [datetime.now()] returns, restricted to the fields that
    [strftime("%H:%M:%S")] reads (hour < 24, minute < 60, second < 60). *)
Record datetime := mkDatetime { hour : nat; minute : nat; second : nat }.

(** The three Streamlit status boxes the feed writes. *)
Inductive Element :=
  | st_error (body : string)
  | st_success (body : string)
  | st_info (body : string).

(** [st.session_state] is a dictionary; ['alerts'] is the only key the
    script ever reads or writes. [page] collects the feed elements in the
    order the script emits them. *)
Record World := mkWorld {
  session_state : gmap string (list Alert);
  page : list Element
}.

(** ** The script monad: state, plus failure for a missing key *)

Definition Script (A : Type) : Type := World → option (A * World).

#[global] Instance script_ret : MRet Script := λ A a w, Some (a, w).
#[global] Instance script_bind : MBind Script := λ A B k m w,
  match m w with
  | Some (a, w') => k a w'
  | None => None
  end.

Definition eval {A} (s : Script A) (w : World) : option A := fst <$> s w.
Definition exec {A} (s : Script A) (w : World) : option World := snd <$> s w.

(** [key in st.session_state] *)
Definition contains (key : string) : Script bool := λ w,
  Some (bool_decide (is_Some (session_state w !! key)), w).

(** [st.session_state.alerts], which raises when the key is absent. *)
Definition get_alerts : Script (list Alert) := λ w,
  match session_state w !! "alerts" with
  | Some l => Some (l, w)
  | None => None
  end.

(** [st.session_state.alerts = l], and the in-place update of the stored
    list: nothing else holds a reference to it. *)
Definition set_alerts (l : list Alert) : Script unit := λ w,
  Some (tt, mkWorld (<["alerts" := l]> (session_state w)) (page w)).

Definition emit (e : Element) : Script unit := λ w,
  Some (tt, mkWorld (session_state w) (page w ++ [e])).

(** [for x in l: body(x)] *)
Fixpoint for_each {A} (l : list A) (body : A → Script unit) : Script unit :=
  match l with
  | [] => mret tt
  | x :: l' => body x ;; for_each l' body
  end.

(** ** Python list and string primitives *)

(** [l.insert(i, x)] for [i >= 0]: [x] goes before position [i], or at the
    end when [i] is past the end. *)
Definition list_insert_at {A} (i : nat) (x : A) (l : list A) : list A :=
  take i l ++ x :: drop i l.

(** [l[:n]]: a fresh list of the elements before position [n]; a negative
    [n] counts from the end. *)
Definition slice_to {A} (n : Z) (l : list A) : list A :=
  if decide (n < 0)%Z then take (Z.to_nat (Z.of_nat (length l) + n)) l
  else take (Z.to_nat n) l.

Definition digit (d : nat) : Ascii.ascii := Ascii.ascii_of_nat (48 + d).

(** [%H], [%M], [%S]: two decimal digits, zero padded. *)
Definition two_digits (n : nat) : string :=
  String (digit (n / 10)) (String (digit (n mod 10)) EmptyString).

(** [d.strftime("%H:%M:%S")] *)
Definition strftime_HMS (d : datetime) : string :=
  two_digits (hour d) +:+ ":" +:+ two_digits (minute d) +:+ ":" +:+
  two_digits (second d).

(** ** 2. Global state management (lines 28-32) *)

Definition calibration : Alert :=
  mkAlert "19:04:22" "System Calibration Complete" "success".
Definition sensor_node : Alert :=
  mkAlert "19:10:05" "Sensor Node 14 Active" "info".

Definition seed_alerts : list Alert := [calibration; sensor_node].

Definition init_alerts : Script unit :=
  present ← contains "alerts";
  if negb present then set_alerts seed_alerts else mret tt.

(** ** 5. Live command center: the incident feed (lines 116-123) *)

Definition new_alert (now : datetime) : Alert :=
  mkAlert (strftime_HMS now) "Density Spike: Gate 4" "error".

(** [st.session_state.alerts.insert(i, a)] *)
Definition alerts_insert (i : nat) (a : Alert) : Script unit :=
  l ← get_alerts; set_alerts (list_insert_at i a l).

(** The body of [if st.button("Simulate Critical Surge"):]. *)
Definition simulate_critical_surge (now : datetime) : Script unit :=
  alerts_insert 0 (new_alert now).

(** [st.session_state.alerts[:n]] *)
Definition topN (n : Z) : Script (list Alert) :=
  l ← get_alerts; mret (slice_to n l).

(** [f"**{a['time']}** | {a['msg']}"] *)
Definition row_text (a : Alert) : string :=
  "**" +:+ time a +:+ "** | " +:+ msg a.

(** The body of the render loop: [if]/[elif]/[else] on [a['type']]. *)
Definition show_alert (a : Alert) : Script unit :=
  if String.eqb (type a) "error" then emit (st_error (row_text a))
  else if String.eqb (type a) "success" then emit (st_success (row_text a))
  else emit (st_info (row_text a)).

Definition incident_feed : Script unit :=
  top ← topN 6; for_each top show_alert.

Definition live_command_center (button : bool) (now : datetime) : Script unit :=
  (if button then simulate_critical_surge now else mret tt) ;;
  incident_feed.

(** ** The whole script, run once per user interaction *)

Inductive Nav :=
  | StrategicGoals
  | LiveCommandCenter
  | AIAnalytics
  | SystemDeployment.

(** What one rerun depends on: the radio selection, whether the button was
    the widget that caused the rerun, and the wall clock. *)
Record Rerun := mkRerun { nav : Nav; button : bool; now : datetime }.

Definition app (r : Rerun) : Script unit :=
  init_alerts ;;
  match nav r with
  | LiveCommandCenter => live_command_center (button r) (now r)
  | _ => mret tt
  end.

(** A session that has just started: an empty dictionary, an empty page. *)
Definition blank : World := mkWorld ∅ [].

Definition noon : datetime := mkDatetime 12 0 0.


(** ** Reading the store *)

Definition alerts_of (w : World) : option (list Alert) :=
  session_state w !! "alerts".

(** The world after [st.session_state.alerts] has become [l]. *)
Definition with_alerts (l : list Alert) (w : World) : World :=
  mkWorld (<["alerts" := l]> (session_state w)) (page w).

(** The store after a new session has run the initialisation and then the
    button handler once per clock reading of [ts], first reading first. *)
Definition store_after (ts : list datetime) : option (list Alert) :=
  exec (init_alerts ;; for_each ts simulate_critical_surge) blank ≫= alerts_of.

(** The records in the order in which they entered the list: the two
    elements of the list display of line 29, left to right, then one
    record per press of the button. *)
Definition insertion_log (ts : list datetime) : list Alert :=
  seed_alerts ++ (new_alert <$> ts).

(** The element the render loop writes for one alert. *)
Definition feed_row (a : Alert) : Element :=
  if String.eqb (type a) "error" then st_error (row_text a)
  else if String.eqb (type a) "success" then st_success (row_text a)
  else st_info (row_text a).

(** The operations of the feed, as one labelled step. *)
Inductive CoreOp :=
  | SimulationTrigger (clock : datetime)
  | TopN (n : Z)
  | AlertFeedView.

Definition perform (op : CoreOp) : Script unit :=
  match op with
  | SimulationTrigger clock => simulate_critical_surge clock
  | TopN n => topN n ;; mret tt
  | AlertFeedView => incident_feed
  end.

Definition is_trigger (op : CoreOp) : bool :=
  match op with SimulationTrigger _ => true | _ => false end.

(** How many presses of the button a run of operations holds. *)
Definition surges (ops : list CoreOp) : nat :=
  length (List.filter is_trigger ops).

(** An alert with a severity tag that the script never writes itself. *)
Definition unlisted : Alert := mkAlert "03:15:00" "Perimeter Breach" "warning".

(** ** A session: one rerun of the script per interaction *)

(** One rerun: Streamlit clears the page and runs the script from the top
    against the session dictionary, which it keeps for the next rerun. *)
Definition rerun (r : Rerun) (ss : gmap string (list Alert)) : option World :=
  exec (app r) (mkWorld ss []).

Fixpoint session (rs : list Rerun) (w : World) : option World :=
  match rs with
  | [] => Some w
  | r :: rs' => rerun r (session_state w) ≫= session rs'
  end.

(** Whether a rerun runs the button handler: the button is created on the
    live command center only, so its flag is read on no other page. *)
Definition is_press (r : Rerun) : bool :=
  match nav r with LiveCommandCenter => button r | _ => false end.

(** The clock readings of the presses of a session, first press first. *)
Definition presses (rs : list Rerun) : list datetime :=
  now <$> List.filter is_press rs.

(** The alerts list the script works on: the stored one, or the seed when
    the key is absent. *)
Definition base_alerts (w : World) : list Alert :=
  default seed_alerts (alerts_of w).

(** What [datetime] guarantees of the fields that are formatted. *)
Definition valid_clock (d : datetime) : Prop :=
  hour d < 24 ∧ minute d < 60 ∧ second d < 60.

(** The characters ['0'] to ['9']. *)
Definition is_digit (c : Ascii.ascii) : bool :=
  (48 <=? Ascii.nat_of_ascii c) && (Ascii.nat_of_ascii c <=? 57).

(** The [n] records that entered the list last, latest first. *)
Definition most_recent (n : nat) (ts : list datetime) : list Alert :=
  take n (reverse (insertion_log ts)).

(** Five presses of the button, one second apart. *)
Definition five_presses : list datetime :=
  [mkDatetime 12 0 0; mkDatetime 12 0 1; mkDatetime 12 0 2;
   mkDatetime 12 0 3; mkDatetime 12 0 4].

(** * Properties *)

(** ** The primitives on concrete inputs *)

Example strftime_noon : strftime_HMS noon = "12:00:00".
Proof. reflexivity. Qed.

Example strftime_padded : strftime_HMS (mkDatetime 7 5 9) = "07:05:09".
Proof. reflexivity. Qed.

Example insert_front : list_insert_at 0 7 [1; 2; 3] = [7; 1; 2; 3].
Proof. reflexivity. Qed.

Example insert_past_end : list_insert_at 9 7 [1; 2; 3] = [1; 2; 3; 7].
Proof. reflexivity. Qed.

Example slice_short : slice_to 6 [1; 2; 3] = [1; 2; 3].
Proof. reflexivity. Qed.

Example slice_negative : slice_to (-1) [1; 2; 3] = [1; 2].
Proof. reflexivity. Qed.

Example fresh_store :
  exec init_alerts blank = Some (mkWorld {["alerts" := seed_alerts]} []).
Proof. vm_compute. reflexivity. Qed.

Example surge_without_alerts_list : simulate_critical_surge noon blank = None.
Proof. reflexivity. Qed.

Example feed_of_fresh_store :
  page <$> exec (init_alerts ;; incident_feed) blank
  = Some [st_success "**19:04:22** | System Calibration Complete";
          st_info "**19:10:05** | Sensor Node 14 Active"].
Proof. vm_compute. reflexivity. Qed.

(** ** The monad, one step at a time *)

Lemma bind_some {A B} (m : Script A) (k : A → Script B) w a w' :
  m w = Some (a, w') → (m ≫= k) w = k a w'.
Proof. intros E. unfold mbind, script_bind. by rewrite E. Qed.

Lemma with_alerts_id w l : alerts_of w = Some l → with_alerts l w = w.
Proof.
  destruct w as [ss pg]. unfold alerts_of, with_alerts. simpl. intros E.
  f_equal. by apply insert_id.
Qed.

Lemma with_alerts_twice l1 l2 w :
  with_alerts l2 (with_alerts l1 w) = with_alerts l2 w.
Proof. unfold with_alerts. simpl. f_equal. apply insert_insert_eq. Qed.

Lemma alerts_of_with_alerts l w : alerts_of (with_alerts l w) = Some l.
Proof. unfold alerts_of, with_alerts. simpl. apply lookup_insert_eq. Qed.

Lemma get_alerts_some w l : alerts_of w = Some l → get_alerts w = Some (l, w).
Proof. unfold alerts_of, get_alerts. by intros ->. Qed.

Lemma alerts_insert_some i a w l :
  alerts_of w = Some l →
  alerts_insert i a w = Some (tt, with_alerts (list_insert_at i a l) w).
Proof.
  intros E. unfold alerts_insert.
  by rewrite (bind_some _ _ _ _ _ (get_alerts_some _ _ E)).
Qed.

Lemma simulate_some clock w l :
  alerts_of w = Some l →
  simulate_critical_surge clock w = Some (tt, with_alerts (new_alert clock :: l) w).
Proof. intros E. unfold simulate_critical_surge. by rewrite (alerts_insert_some _ _ _ _ E). Qed.

Lemma topN_some n w l :
  alerts_of w = Some l → topN n w = Some (slice_to n l, w).
Proof.
  intros E. unfold topN.
  by rewrite (bind_some _ _ _ _ _ (get_alerts_some _ _ E)).
Qed.

Lemma init_alerts_present w l : alerts_of w = Some l → init_alerts w = Some (tt, w).
Proof.
  unfold alerts_of, init_alerts, mbind, script_bind, contains. intros E.
  rewrite bool_decide_eq_true_2; [done | by rewrite E].
Qed.

Lemma init_alerts_absent w :
  alerts_of w = None → init_alerts w = Some (tt, with_alerts seed_alerts w).
Proof.
  unfold alerts_of, init_alerts, mbind, script_bind, contains. intros E.
  rewrite bool_decide_eq_false_2; [done | rewrite E; by intros [? ?]].
Qed.

Lemma show_alert_emit a : show_alert a = emit (feed_row a).
Proof.
  unfold show_alert, feed_row.
  destruct (String.eqb (type a) "error"); [done |].
  by destruct (String.eqb (type a) "success").
Qed.

Lemma for_each_show l w :
  for_each l show_alert w
  = Some (tt, mkWorld (session_state w) (page w ++ (feed_row <$> l))).
Proof.
  revert w. induction l as [| a l IH]; intros [ss pg]; simpl.
  - by rewrite app_nil_r.
  - rewrite show_alert_emit.
    rewrite (bind_some _ _ _ tt (mkWorld ss (pg ++ [feed_row a]))); [| done].
    rewrite IH. simpl. by rewrite <- app_assoc.
Qed.

Lemma for_each_surge ts w l :
  alerts_of w = Some l →
  for_each ts simulate_critical_surge w
  = Some (tt, with_alerts (reverse (new_alert <$> ts) ++ l) w).
Proof.
  revert w l. induction ts as [| t ts IH]; intros w l E; simpl.
  - by rewrite (with_alerts_id _ _ E).
  - rewrite (bind_some _ _ _ _ _ (simulate_some t _ _ E)).
    rewrite (IH _ _ (alerts_of_with_alerts _ _)).
    rewrite with_alerts_twice, reverse_cons, <- app_assoc. done.
Qed.

Lemma slice_to_nonneg {A} (n : Z) (l : list A) :
  (0 ≤ n)%Z → slice_to n l = take (Z.to_nat n) l.
Proof. intros Hn. unfold slice_to. case_decide; [lia | done]. Qed.

Lemma take_min {A} (n : nat) (l : list A) : take (n `min` length l) l = take n l.
Proof.
  destruct (Nat.min_spec n (length l)) as [[_ ->] | [Hle ->]]; [done |].
  by rewrite firstn_all, take_ge.
Qed.

Lemma incident_feed_some w l :
  alerts_of w = Some l →
  incident_feed w
  = Some (tt, mkWorld (session_state w) (page w ++ (feed_row <$> take 6 l))).
Proof.
  intros E. unfold incident_feed.
  rewrite (bind_some _ _ _ _ _ (topN_some 6 _ _ E)).
  by rewrite for_each_show, slice_to_nonneg.
Qed.

Lemma perform_some op w l :
  alerts_of w = Some l →
  ∃ w', perform op w = Some (tt, w')
    ∧ alerts_of w'
      = Some (match op with SimulationTrigger clock => new_alert clock :: l | _ => l end).
Proof.
  intros E. destruct op as [clock | n |]; simpl.
  - eexists. split; [by apply simulate_some | apply alerts_of_with_alerts].
  - exists w. by rewrite (bind_some _ _ _ _ _ (topN_some n _ _ E)).
  - eexists. split; [by apply incident_feed_some | done].
Qed.

Lemma store_after_eq ts :
  store_after ts = Some (reverse (new_alert <$> ts) ++ seed_alerts).
Proof.
  unfold store_after, exec.
  rewrite (bind_some _ _ _ _ _ (init_alerts_absent blank eq_refl)).
  rewrite (for_each_surge ts _ seed_alerts (alerts_of_with_alerts _ _)).
  simpl. by rewrite with_alerts_twice, alerts_of_with_alerts.
Qed.

(** ** The end-to-end scenario *)

(** C1, as the code behaves: the new session's store is the seed display
    [System Calibration Complete; Sensor Node 14 Active]; after one press of
    the button at 12:00:00 the first six alerts are the new record followed
    by the two seed records in the order of the display. *)
Theorem surge_at_noon_top6 :
  eval (init_alerts ;; topN 6) blank
  = Some [mkAlert "19:04:22" "System Calibration Complete" "success";
          mkAlert "19:10:05" "Sensor Node 14 Active" "info"]
  ∧ eval (init_alerts ;; simulate_critical_surge noon ;; topN 6) blank
    = Some [mkAlert "12:00:00" "Density Spike: Gate 4" "error";
            mkAlert "19:04:22" "System Calibration Complete" "success";
            mkAlert "19:10:05" "Sensor Node 14 Active" "info"].
Proof. split; vm_compute; reflexivity. Qed.

(** C1, as stated, fails: the first six alerts are not the new record
    followed by [Sensor Node 14 Active] and then
    [System Calibration Complete]. *)
Lemma surge_at_noon_top6_seed_not_swapped :
  eval (init_alerts ;; topN 6) blank
  = Some [mkAlert "19:04:22" "System Calibration Complete" "success";
          mkAlert "19:10:05" "Sensor Node 14 Active" "info"]
  ∧ eval (init_alerts ;; simulate_critical_surge noon ;; topN 6) blank
    ≠ Some [mkAlert "12:00:00" "Density Spike: Gate 4" "error";
            mkAlert "19:10:05" "Sensor Node 14 Active" "info";
            mkAlert "19:04:22" "System Calibration Complete" "success"].
Proof. split; vm_compute; [reflexivity | discriminate]. Qed.

(** ** Order of the store *)

(** C2, as stated, fails: in the seeded store itself element 0 is
    [System Calibration Complete], while the record that entered the list
    last is [Sensor Node 14 Active]; and after one press of the button the
    store is not the insertion log read backwards. *)
Lemma seeded_store_not_newest_first :
  store_after [] ≫= head = Some calibration
  ∧ last (insertion_log []) = Some sensor_node
  ∧ calibration ≠ sensor_node
  ∧ store_after [noon] = Some [new_alert noon; calibration; sensor_node]
  ∧ reverse (insertion_log [noon]) = [new_alert noon; sensor_node; calibration].
Proof. repeat split; vm_compute; (reflexivity || discriminate). Qed.

(** C2, amended: after at least one press of the button, element 0 of the
    store is the record that entered the list last, and the store is the
    records of the presses, latest first, followed by the two seed records
    in the order of the list display. *)
Theorem newest_surge_first (ts : list datetime) :
  ts ≠ [] →
  store_after ts ≫= head = last (insertion_log ts)
  ∧ store_after ts = Some (reverse (new_alert <$> ts) ++ seed_alerts).
Proof.
  intros Hne. rewrite store_after_eq. split; [| done].
  destruct (exists_last Hne) as (ts' & t & ->).
  unfold insertion_log.
  rewrite fmap_app, reverse_app. simpl.
  by rewrite app_comm_cons, last_snoc.
Qed.

Lemma newest_surge_first_witness :
  store_after [mkDatetime 9 30 0; noon] ≫= head = Some (new_alert noon)
  ∧ store_after [mkDatetime 9 30 0; noon]
    = Some [new_alert noon; new_alert (mkDatetime 9 30 0); calibration; sensor_node].
Proof.
  exact (newest_surge_first [mkDatetime 9 30 0; noon] ltac:(discriminate)).
Defined.

(** ** Severity *)

(** C3, as stated, fails: an alert whose severity is none of [info],
    [success], [error] is rendered, by the [else] branch, as an info box. *)
Lemma unlisted_severity_rendered_as_info :
  (type unlisted ∉ ["info"; "success"; "error"])
  ∧ show_alert unlisted blank
    = Some (tt, mkWorld ∅ [st_info "**03:15:00** | Perimeter Breach"]).
Proof.
  split; [| vm_compute; reflexivity].
  unfold unlisted. simpl. rewrite !elem_of_cons, elem_of_nil.
  intros [? | [? | [? | []]]]; discriminate.
Qed.

(** C3, amended: the loop chooses among exactly three boxes, and the info
    box is the fallback: every alert whose severity is neither [error] nor
    [success], inside the enumeration or not, is written as an info box. *)
Theorem info_is_the_fallback (a : Alert) (w : World) :
  type a ≠ "error" → type a ≠ "success" →
  show_alert a w
  = Some (tt, mkWorld (session_state w) (page w ++ [st_info (row_text a)])).
Proof.
  intros He Hs. unfold show_alert.
  apply String.eqb_neq in He. apply String.eqb_neq in Hs.
  by rewrite He, Hs.
Qed.

Lemma info_is_the_fallback_witness :
  show_alert unlisted blank
  = Some (tt, mkWorld ∅ [st_info (row_text unlisted)]).
Proof.
  exact (info_is_the_fallback unlisted blank ltac:(discriminate) ltac:(discriminate)).
Defined.

(** ** Pressing the button [k] times *)

(** C4: from a new session, [length ts] presses of the button leave a store
    of [2 + length ts] records whose first [length ts] elements are the
    records of the presses, latest first, each an [error] with the message
    [Density Spike: Gate 4]; one press gives three records, the first of
    them such a record. *)
Theorem surge_k_times (ts : list datetime) :
  ∃ l, store_after ts = Some l
    ∧ length l = 2 + length ts
    ∧ take (length ts) l = reverse (new_alert <$> ts)
    ∧ Forall (λ a, type a = "error" ∧ msg a = "Density Spike: Gate 4")
        (take (length ts) l)
    ∧ ∀ clock, ∃ a b c,
        store_after [clock] = Some [a; b; c]
        ∧ type a = "error" ∧ msg a = "Density Spike: Gate 4".
Proof.
  exists (reverse (new_alert <$> ts) ++ seed_alerts).
  assert (Hlen : length (reverse (new_alert <$> ts)) = length ts)
    by (by rewrite length_reverse, length_fmap).
  split; [apply store_after_eq |].
  split; [rewrite length_app, Hlen; simpl; lia |].
  assert (Htake : take (length ts) (reverse (new_alert <$> ts) ++ seed_alerts)
                  = reverse (new_alert <$> ts))
    by (rewrite <- Hlen at 1; apply take_app_length).
  split; [done |].
  split.
  - rewrite Htake. apply Forall_reverse, Forall_fmap, Forall_forall. done.
  - intros clock. exists (new_alert clock), calibration, sensor_node.
    by rewrite store_after_eq.
Qed.

(** ** The first [n] alerts *)

(** C5: for a store [l] and [n >= 0], [topN n] returns the first
    [min n (length l)] elements of [l] in their order and leaves the world as
    it was; [topN 0] is empty, so is [topN n] on an empty store, and for
    [n >= length l] the result is [l] itself, the same as
    [topN (length l)]. *)
Theorem topN_prefix (w : World) (l : list Alert) (n : Z) :
  alerts_of w = Some l → (0 ≤ n)%Z →
  topN n w = Some (take (Z.to_nat n `min` length l) l, w)
  ∧ length (take (Z.to_nat n `min` length l) l) = Z.to_nat n `min` length l
  ∧ topN 0 w = Some ([], w)
  ∧ (l = [] → topN n w = Some ([], w))
  ∧ ((Z.of_nat (length l) ≤ n)%Z →
     topN n w = Some (l, w) ∧ topN n w = topN (Z.of_nat (length l)) w).
Proof.
  intros E Hn.
  assert (Hn' : topN n w = Some (take (Z.to_nat n) l, w))
    by (by rewrite (topN_some n _ _ E), slice_to_nonneg).
  split; [by rewrite take_min |].
  split; [rewrite length_take; lia |].
  split; [by rewrite (topN_some 0 _ _ E) |].
  split; [intros ->; rewrite Hn'; by rewrite take_nil |].
  intros Hge.
  rewrite Hn', (topN_some _ _ _ E), slice_to_nonneg by lia.
  rewrite Nat2Z.id, firstn_all, take_ge by lia. done.
Qed.

Lemma topN_prefix_witness :
  topN 2 (with_alerts [new_alert noon; calibration; sensor_node] blank)
  = Some ([new_alert noon; calibration],
          with_alerts [new_alert noon; calibration; sensor_node] blank).
Proof.
  exact (proj1 (topN_prefix
    (with_alerts [new_alert noon; calibration; sensor_node] blank)
    [new_alert noon; calibration; sensor_node] 2
    ltac:(reflexivity) ltac:(lia))).
Defined.

(** ** The rendered feed *)

(** C6, as stated, fails: after five presses on the seeded store the feed
    shows the five new records and [System Calibration Complete], while the
    six records that entered the list last are the five new ones and
    [Sensor Node 14 Active], which the feed cuts. *)
Lemma feed_after_five_presses_not_most_recent :
  page <$> exec (init_alerts ;; for_each five_presses simulate_critical_surge ;;
                 incident_feed) blank
  = Some [st_error "**12:00:04** | Density Spike: Gate 4";
          st_error "**12:00:03** | Density Spike: Gate 4";
          st_error "**12:00:02** | Density Spike: Gate 4";
          st_error "**12:00:01** | Density Spike: Gate 4";
          st_error "**12:00:00** | Density Spike: Gate 4";
          st_success "**19:04:22** | System Calibration Complete"]
  ∧ feed_row <$> most_recent 6 five_presses
    = [st_error "**12:00:04** | Density Spike: Gate 4";
       st_error "**12:00:03** | Density Spike: Gate 4";
       st_error "**12:00:02** | Density Spike: Gate 4";
       st_error "**12:00:01** | Density Spike: Gate 4";
       st_error "**12:00:00** | Density Spike: Gate 4";
       st_info "**19:10:05** | Sensor Node 14 Active"]
  ∧ page <$> exec (init_alerts ;; for_each five_presses simulate_critical_surge ;;
                   incident_feed) blank
    ≠ Some (feed_row <$> most_recent 6 five_presses).
Proof. repeat split; vm_compute; (reflexivity || discriminate). Qed.

(** C6, amended: the feed is capped at the first six records of the store:
    it writes exactly [min 6 (length l)] rows, one per record that [topN 6]
    yields, in the same order. *)
Theorem feed_shows_top6 (w : World) (l : list Alert) :
  alerts_of w = Some l →
  ∃ top, topN 6 w = Some (top, w)
    ∧ top = take 6 l
    ∧ incident_feed w
      = Some (tt, mkWorld (session_state w) (page w ++ (feed_row <$> top)))
    ∧ length (feed_row <$> top) = 6 `min` length l.
Proof.
  intros E. exists (take 6 l).
  split; [by rewrite (topN_some 6 _ _ E), slice_to_nonneg |].
  split; [done |].
  split; [by apply incident_feed_some |].
  by rewrite length_fmap, length_take.
Qed.

Lemma feed_shows_top6_witness :
  ∃ top, topN 6 (with_alerts seed_alerts blank)
         = Some (top, with_alerts seed_alerts blank)
    ∧ top = take 6 seed_alerts
    ∧ incident_feed (with_alerts seed_alerts blank)
      = Some (tt, mkWorld (session_state (with_alerts seed_alerts blank))
                    (page (with_alerts seed_alerts blank) ++ (feed_row <$> top)))
    ∧ length (feed_row <$> top) = 6 `min` length seed_alerts.
Proof.
  exact (feed_shows_top6 (with_alerts seed_alerts blank) seed_alerts
           ltac:(reflexivity)).
Defined.

(** The six rows follow the order of the store, whatever its history: after
    exactly five presses the sixth row is the first seed record of the list
    display, and the second one is not shown. *)
Example sixth_row_after_five_surges :
  take 6 <$> store_after (replicate 5 noon)
  = Some (replicate 5 (new_alert noon) ++ [calibration]).
Proof. vm_compute. reflexivity. Qed.

(** C7: what the feed writes depends on the session dictionary alone, and
    writing it leaves the dictionary as it was: from any page the same rows
    are appended, so two renders in a row write the same rows twice, and a
    rerun of the script without a press of the button shows the same page
    again. *)
Theorem feed_render_pure (w : World) (l : list Alert) :
  alerts_of w = Some l →
  ∃ rows,
    (∀ pg, incident_feed (mkWorld (session_state w) pg)
           = Some (tt, mkWorld (session_state w) (pg ++ rows)))
    ∧ (incident_feed ;; incident_feed) w
      = Some (tt, mkWorld (session_state w) ((page w ++ rows) ++ rows))
    ∧ (∀ clock pg,
         app (mkRerun LiveCommandCenter false clock) (mkWorld (session_state w) pg)
         = Some (tt, mkWorld (session_state w) (pg ++ rows))).
Proof.
  intros E. exists (feed_row <$> take 6 l).
  assert (Hfeed : ∀ pg, incident_feed (mkWorld (session_state w) pg)
                        = Some (tt, mkWorld (session_state w)
                                      (pg ++ (feed_row <$> take 6 l))))
    by (intros pg; by rewrite (incident_feed_some _ l)).
  split; [done |].
  split.
  - destruct w as [ss pg]. simpl in *.
    by rewrite (bind_some _ _ _ _ _ (Hfeed pg)), Hfeed.
  - intros clock pg. unfold app, live_command_center. simpl.
    rewrite (bind_some _ _ _ _ _ (init_alerts_present (mkWorld _ pg) l E)).
    by rewrite (bind_some _ _ _ tt (mkWorld (session_state w) pg)).
Qed.

Lemma feed_render_pure_witness :
  ∃ rows,
    (∀ pg, incident_feed (mkWorld (session_state (with_alerts seed_alerts blank)) pg)
           = Some (tt, mkWorld (session_state (with_alerts seed_alerts blank))
                         (pg ++ rows)))
    ∧ (incident_feed ;; incident_feed) (with_alerts seed_alerts blank)
      = Some (tt, mkWorld (session_state (with_alerts seed_alerts blank))
                    ((page (with_alerts seed_alerts blank) ++ rows) ++ rows))
    ∧ (∀ clock pg,
         app (mkRerun LiveCommandCenter false clock)
           (mkWorld (session_state (with_alerts seed_alerts blank)) pg)
         = Some (tt, mkWorld (session_state (with_alerts seed_alerts blank))
                       (pg ++ rows))).
Proof.
  exact (feed_render_pure (with_alerts seed_alerts blank) seed_alerts
           ltac:(reflexivity)).
Defined.

(** ** Inserting at the front *)

(** C8: [alerts.insert(0, a)] succeeds on every store and for every alert:
    afterwards element 0 is [a], the element that was at index [i] is at
    index [i + 1], the store is one longer, and nothing else in the world
    has changed. *)
Theorem prepend_shifts (w : World) (l : list Alert) (a : Alert) :
  alerts_of w = Some l →
  ∃ l', alerts_insert 0 a w = Some (tt, with_alerts l' w)
    ∧ alerts_of (with_alerts l' w) = Some l'
    ∧ l' !! 0 = Some a
    ∧ (∀ i, l' !! S i = l !! i)
    ∧ length l' = S (length l).
Proof.
  intros E. exists (a :: l).
  split; [by rewrite (alerts_insert_some 0 a _ _ E) |].
  split; [apply alerts_of_with_alerts |].
  done.
Qed.

Lemma prepend_shifts_witness :
  ∃ l', alerts_insert 0 unlisted (with_alerts seed_alerts blank)
        = Some (tt, with_alerts l' (with_alerts seed_alerts blank))
    ∧ alerts_of (with_alerts l' (with_alerts seed_alerts blank)) = Some l'
    ∧ l' !! 0 = Some unlisted
    ∧ (∀ i, l' !! S i = seed_alerts !! i)
    ∧ length l' = S (length seed_alerts).
Proof.
  exact (prepend_shifts (with_alerts seed_alerts blank) seed_alerts unlisted
           ltac:(reflexivity)).
Defined.

(** ** Size of the store *)

Lemma surges_cons op ops :
  surges (op :: ops) = (if is_trigger op then 1 else 0) + surges ops.
Proof. unfold surges. simpl. by destruct (is_trigger op). Qed.

Lemma for_each_perform ops : ∀ w l,
  alerts_of w = Some l →
  ∃ w' l', for_each ops perform w = Some (tt, w')
    ∧ alerts_of w' = Some l'
    ∧ length l' = length l + surges ops.
Proof.
  induction ops as [| op ops IH]; intros w l E.
  - exists w, l. unfold surges. simpl. repeat split; [done | lia].
  - destruct (perform_some op _ _ E) as (w1 & Hrun & E1).
    destruct (IH _ _ E1) as (w' & l' & Hrest & E' & Hlen).
    exists w', l'. simpl. rewrite (bind_some _ _ _ _ _ Hrun).
    repeat split; [done.. |].
    rewrite Hlen, surges_cons. destruct op; simpl; lia.
Qed.

(** C9: across any run of the feed's operations (presses of the button,
    reads of the first [n] alerts, renders) the store never gets shorter:
    its length grows by exactly the number of presses in the run, so one
    press makes it one longer and a read or a render leaves it as long as
    it was. *)
Theorem store_never_shrinks (ops : list CoreOp) (w : World) (l : list Alert) :
  alerts_of w = Some l →
  ∃ w' l', for_each ops perform w = Some (tt, w')
    ∧ alerts_of w' = Some l'
    ∧ length l ≤ length l'
    ∧ length l' = length l + surges ops
    ∧ (∀ clock, length <$> (exec (perform (SimulationTrigger clock)) w ≫= alerts_of)
                = Some (S (length l)))
    ∧ (∀ n, length <$> (exec (perform (TopN n)) w ≫= alerts_of) = Some (length l))
    ∧ length <$> (exec (perform AlertFeedView) w ≫= alerts_of) = Some (length l).
Proof.
  intros E.
  destruct (for_each_perform ops _ _ E) as (w' & l' & Hrun & E' & Hlen).
  exists w', l'. split; [done |]. split; [done |].
  split; [lia |]. split; [done |].
  assert (Hone : ∀ op, length <$> (exec (perform op) w ≫= alerts_of)
                       = Some (length l + (if is_trigger op then 1 else 0))).
  { intros op. destruct (perform_some op _ _ E) as (w1 & Hop & E1).
    unfold exec. rewrite Hop. simpl. rewrite E1. simpl.
    destruct op; simpl; f_equal; lia. }
  split; [intros clock; rewrite Hone; simpl; f_equal; lia |].
  split; [intros n |]; rewrite Hone; simpl; f_equal; lia.
Qed.

Lemma store_never_shrinks_witness :
  ∃ w' l',
    for_each [AlertFeedView; SimulationTrigger noon; TopN 1; AlertFeedView] perform
      (with_alerts seed_alerts blank) = Some (tt, w')
    ∧ alerts_of w' = Some l'
    ∧ length seed_alerts ≤ length l'
    ∧ length l' = length seed_alerts
                  + surges [AlertFeedView; SimulationTrigger noon; TopN 1; AlertFeedView]
    ∧ (∀ clock, length <$> (exec (perform (SimulationTrigger clock))
                              (with_alerts seed_alerts blank) ≫= alerts_of)
                = Some (S (length seed_alerts)))
    ∧ (∀ n, length <$> (exec (perform (TopN n)) (with_alerts seed_alerts blank)
                          ≫= alerts_of) = Some (length seed_alerts))
    ∧ length <$> (exec (perform AlertFeedView) (with_alerts seed_alerts blank)
                    ≫= alerts_of) = Some (length seed_alerts).
Proof.
  exact (store_never_shrinks
           [AlertFeedView; SimulationTrigger noon; TopN 1; AlertFeedView]
           (with_alerts seed_alerts blank) seed_alerts ltac:(reflexivity)).
Defined.

(** ** Initialisation *)

Lemma init_alerts_idempotent w : (init_alerts ;; init_alerts) w = init_alerts w.
Proof.
  destruct (alerts_of w) as [l |] eqn:E.
  - by rewrite (bind_some _ _ _ _ _ (init_alerts_present _ _ E)).
  - rewrite (bind_some _ _ _ _ _ (init_alerts_absent _ E)).
    rewrite (init_alerts_present _ _ (alerts_of_with_alerts _ _)).
    by rewrite (init_alerts_absent _ E).
Qed.

(** C10: when the session dictionary already holds an alerts list, the
    initialisation step changes nothing, however often it runs, and a whole
    rerun of the script keeps every alert of the list, in place, behind
    whatever the rerun has put in front. *)
Theorem init_alerts_guarded (w : World) (l : list Alert) :
  alerts_of w = Some l →
  init_alerts w = Some (tt, w)
  ∧ (init_alerts ;; init_alerts) w = Some (tt, w)
  ∧ (∀ r, ∃ w' newer, app r w = Some (tt, w') ∧ alerts_of w' = Some (newer ++ l)
                      ∧ (button r = false → newer = [])).
Proof.
  intros E. pose proof (init_alerts_present _ _ E) as Hinit.
  split; [done |].
  split; [by rewrite init_alerts_idempotent |].
  intros [nv pressed clock]. unfold app. rewrite (bind_some _ _ _ _ _ Hinit). simpl.
  destruct nv; try (exists w, []; by repeat split).
  unfold live_command_center. destruct pressed.
  - rewrite (bind_some _ _ _ _ _ (simulate_some clock _ _ E)).
    rewrite (incident_feed_some _ _ (alerts_of_with_alerts _ _)).
    eexists _, [new_alert clock]. repeat split; [| done].
    apply (alerts_of_with_alerts _ w).
  - rewrite (bind_some _ _ _ tt w) by done.
    rewrite (incident_feed_some _ _ E).
    eexists _, []. by repeat split.
Qed.

Lemma init_alerts_guarded_witness :
  init_alerts (with_alerts [unlisted] blank)
  = Some (tt, with_alerts [unlisted] blank).
Proof.
  exact (proj1 (init_alerts_guarded (with_alerts [unlisted] blank) [unlisted]
                  ltac:(reflexivity))).
Defined.

(** * Further properties of the script *)

(** ** One run of the whole script *)

Lemma live_command_center_some pressed clock w l :
  alerts_of w = Some l →
  live_command_center pressed clock w
  = Some (tt, mkWorld
            (<["alerts" := (if pressed then [new_alert clock] else []) ++ l]>
               (session_state w))
            (page w ++ (feed_row <$>
               take 6 ((if pressed then [new_alert clock] else []) ++ l)))).
Proof.
  intros E. unfold live_command_center. destruct pressed; simpl.
  - rewrite (bind_some _ _ _ _ _ (simulate_some clock _ _ E)).
    by rewrite (incident_feed_some _ _ (alerts_of_with_alerts _ _)).
  - rewrite (bind_some _ _ _ tt w) by done.
    rewrite (incident_feed_some _ _ E).
    by rewrite (insert_id (session_state w) "alerts" l E).
Qed.

Lemma app_present r w l :
  alerts_of w = Some l →
  app r w
  = Some (tt, mkWorld
            (<["alerts" := (if is_press r then [new_alert (now r)] else []) ++ l]>
               (session_state w))
            (page w ++
             match nav r with
             | LiveCommandCenter =>
                 feed_row <$>
                   take 6 ((if is_press r then [new_alert (now r)] else []) ++ l)
             | _ => []
             end)).
Proof.
  intros E. destruct r as [nv pressed clock]. unfold app, is_press. simpl.
  rewrite (bind_some _ _ _ _ _ (init_alerts_present _ _ E)).
  destruct nv; try by apply live_command_center_some.
  all: simpl; rewrite app_nil_r, (insert_id _ _ _ E); by destruct w.
Qed.

Lemma app_after_init r w w0 l :
  init_alerts w = Some (tt, w0) → alerts_of w0 = Some l → app r w = app r w0.
Proof.
  intros Hinit E. unfold app.
  rewrite (bind_some _ _ _ _ _ Hinit).
  by rewrite (bind_some _ _ _ _ _ (init_alerts_present _ _ E)).
Qed.

Lemma app_run (r : Rerun) (w : World) :
  app r w
  = Some (tt, mkWorld
            (<["alerts" := (if is_press r then [new_alert (now r)] else [])
                           ++ base_alerts w]> (session_state w))
            (page w ++
             match nav r with
             | LiveCommandCenter =>
                 feed_row <$>
                   take 6 ((if is_press r then [new_alert (now r)] else [])
                           ++ base_alerts w)
             | _ => []
             end)).
Proof.
  unfold base_alerts. destruct (alerts_of w) as [l |] eqn:E; simpl.
  - by apply app_present.
  - rewrite (app_after_init r w _ seed_alerts (init_alerts_absent _ E)
               (alerts_of_with_alerts _ _)).
    rewrite (app_present r _ seed_alerts (alerts_of_with_alerts _ _)).
    unfold with_alerts. simpl. by rewrite insert_insert_eq.
Qed.

(** X1: on a session dictionary whose [alerts] entry is either absent or a
    list of alerts with the three keys, the alerts code of one run of the
    script (guard, button handler, render loop) does not raise: it works on
    the stored list, or on the seed when the key is absent, puts the new
    record in front when the button was pressed on the live command center,
    touches no other key, and writes the first six alerts on the live
    command center and no feed row on any other page. *)
Theorem app_never_raises (r : Rerun) (w : World) :
  ∃ w', app r w = Some (tt, w')
    ∧ alerts_of w'
      = Some ((if is_press r then [new_alert (now r)] else []) ++ base_alerts w)
    ∧ (∀ key, key ≠ "alerts" → session_state w' !! key = session_state w !! key)
    ∧ page w'
      = page w ++
        match nav r with
        | LiveCommandCenter =>
            feed_row <$>
              take 6 ((if is_press r then [new_alert (now r)] else [])
                      ++ base_alerts w)
        | _ => []
        end.
Proof.
  eexists. split; [apply app_run |].
  split; [apply lookup_insert_eq |].
  split; [| done].
  intros key Hkey. simpl. by rewrite lookup_insert_ne.
Qed.

(** ** A whole session *)

Lemma presses_cons r rs :
  reverse (new_alert <$> presses (r :: rs))
  = reverse (new_alert <$> presses rs)
    ++ (if is_press r then [new_alert (now r)] else []).
Proof.
  unfold presses. simpl. destruct (is_press r); simpl.
  - by rewrite reverse_cons.
  - by rewrite app_nil_r.
Qed.

Lemma rerun_some r ss :
  rerun r ss
  = Some (mkWorld
            (<["alerts" := (if is_press r then [new_alert (now r)] else [])
                           ++ default seed_alerts (ss !! "alerts")]> ss)
            match nav r with
            | LiveCommandCenter =>
                feed_row <$>
                  take 6 ((if is_press r then [new_alert (now r)] else [])
                          ++ default seed_alerts (ss !! "alerts"))
            | _ => []
            end).
Proof. unfold rerun, exec. by rewrite app_run. Qed.

Lemma last_cons_default {A} (l : list A) (x d : A) :
  List.last (x :: l) d = List.last l x.
Proof.
  revert x d. induction l as [| y l IH]; intros x d; [done |].
  change (List.last (x :: y :: l) d) with (List.last (y :: l) d).
  rewrite IH. symmetry. apply IH.
Qed.

Lemma session_cons r rs w w1 :
  rerun r (session_state w) = Some w1 → session (r :: rs) w = session rs w1.
Proof. simpl. by intros ->. Qed.

Lemma session_run (r : Rerun) (rs : list Rerun) (w : World) :
  session (r :: rs) w
  = Some (mkWorld
            (<["alerts" := reverse (new_alert <$> presses (r :: rs))
                           ++ base_alerts w]> (session_state w))
            match nav (List.last rs r) with
            | LiveCommandCenter =>
                feed_row <$>
                  take 6 (reverse (new_alert <$> presses (r :: rs))
                          ++ base_alerts w)
            | _ => []
            end).
Proof.
  revert r w. induction rs as [| r2 rs IH]; intros r w.
  - simpl. rewrite rerun_some. simpl. rewrite presses_cons. done.
  - rewrite (session_cons _ (r2 :: rs) _ _ (rerun_some _ _)).
    rewrite IH. unfold base_alerts, alerts_of. simpl session_state.
    rewrite lookup_insert_eq, insert_insert_eq. simpl default.
    rewrite (presses_cons r (r2 :: rs)), <- !app_assoc.
    by rewrite last_cons_default.
Qed.

(** X2: a session of one or more reruns never raises, and ends with the
    records of its presses, latest first, in front of the list it started
    from (the seed, when it started without one); changes of page and
    reruns without a press add and remove nothing, and no other key of the
    dictionary is touched.  The page it ends on holds the first six alerts
    when the last rerun was on the live command center, and no feed row
    otherwise. *)
Theorem session_store (r : Rerun) (rs : list Rerun) (w : World) :
  ∃ w', session (r :: rs) w = Some w'
    ∧ alerts_of w'
      = Some (reverse (new_alert <$> presses (r :: rs)) ++ base_alerts w)
    ∧ (∀ key, key ≠ "alerts" → session_state w' !! key = session_state w !! key)
    ∧ page w'
      = match nav (List.last rs r) with
        | LiveCommandCenter =>
            feed_row <$>
              take 6 (reverse (new_alert <$> presses (r :: rs))
                      ++ base_alerts w)
        | _ => []
        end.
Proof.
  eexists. split; [apply session_run |].
  split; [apply lookup_insert_eq |].
  split; [| done].
  intros key Hkey. simpl. by rewrite lookup_insert_ne.
Qed.

(** ** The feed without an alerts list *)

(** X3: on a session dictionary whose [alerts] entry is either absent or a
    list of alerts with the three keys, the button handler, the read of the
    first [n] alerts, the render loop and the live command center as a whole
    raise when the entry is absent and return when it is present. *)
Theorem feed_needs_alerts (pressed : bool) (clock : datetime) (n : Z) (w : World) :
  (is_Some (simulate_critical_surge clock w) ↔ is_Some (alerts_of w))
  ∧ (is_Some (topN n w) ↔ is_Some (alerts_of w))
  ∧ (is_Some (incident_feed w) ↔ is_Some (alerts_of w))
  ∧ (is_Some (live_command_center pressed clock w) ↔ is_Some (alerts_of w)).
Proof.
  destruct (alerts_of w) as [l |] eqn:E.
  - rewrite (simulate_some clock _ _ E), (topN_some n _ _ E),
      (incident_feed_some _ _ E), (live_command_center_some pressed clock _ _ E).
    repeat split; eauto.
  - assert (Hget : get_alerts w = None).
    { unfold get_alerts. unfold alerts_of in E. by rewrite E. }
    assert (Hsim : simulate_critical_surge clock w = None).
    { unfold simulate_critical_surge, alerts_insert, mbind, script_bind.
      by rewrite Hget. }
    assert (Htop : ∀ k, topN k w = None).
    { intros k. unfold topN, mbind, script_bind. by rewrite Hget. }
    assert (Hfeed : incident_feed w = None).
    { unfold incident_feed. unfold mbind at 1. unfold script_bind.
      by rewrite Htop. }
    assert (Hlive : live_command_center pressed clock w = None).
    { unfold live_command_center. unfold mbind at 1. unfold script_bind.
      destruct pressed; [by rewrite Hsim | done]. }
    rewrite Hsim, Htop, Hfeed, Hlive.
    repeat split; intros [? ?]; discriminate.
Qed.

(** ** What a press shows *)

Lemma feed_row_new_alert clock :
  feed_row (new_alert clock)
  = st_error ("**" +:+ strftime_HMS clock +:+ "** | Density Spike: Gate 4").
Proof. reflexivity. Qed.



(** X5: once a session holds six presses or more, the feed of the live
    command center shows six error boxes, those of the six latest presses,
    latest first, and no older record, whatever the list the session started
    from; the older records are still in the store, behind the presses. *)
Theorem six_presses_fill_feed (r : Rerun) (rs : list Rerun) (w : World) :
  nav (List.last rs r) = LiveCommandCenter →
  6 ≤ length (presses (r :: rs)) →
  ∃ w', session (r :: rs) w = Some w'
    ∧ page w'
      = (λ clock, st_error ("**" +:+ strftime_HMS clock
                            +:+ "** | Density Spike: Gate 4"))
        <$> take 6 (reverse (presses (r :: rs)))
    ∧ length (page w') = 6
    ∧ alerts_of w'
      = Some (reverse (new_alert <$> presses (r :: rs)) ++ base_alerts w).
Proof.
  intros Hlast Hsix. rewrite session_run, Hlast. eexists. split; [done |].
  assert (Hpage : feed_row <$> take 6 (reverse (new_alert <$> presses (r :: rs))
                                       ++ base_alerts w)
                  = (λ clock, st_error ("**" +:+ strftime_HMS clock
                                        +:+ "** | Density Spike: Gate 4"))
                    <$> take 6 (reverse (presses (r :: rs)))).
  { rewrite take_app_le by (rewrite length_reverse, length_fmap; lia).
    rewrite <- fmap_reverse, <- fmap_take, <- list_fmap_compose.
    apply list_fmap_ext. intros _ clock _. apply feed_row_new_alert. }
  simpl page. rewrite Hpage.
  split; [done |].
  split; [rewrite length_fmap, length_take, length_reverse; lia |].
  apply lookup_insert_eq.
Qed.

Lemma six_presses_fill_feed_witness :
  ∃ w', session (replicate 7 (mkRerun LiveCommandCenter true noon)) blank = Some w'
    ∧ page w' = replicate 6 (st_error "**12:00:00** | Density Spike: Gate 4")
    ∧ length (page w') = 6
    ∧ alerts_of w' = Some (replicate 7 (new_alert noon) ++ seed_alerts).
Proof.
  exact (six_presses_fill_feed (mkRerun LiveCommandCenter true noon)
           (replicate 6 (mkRerun LiveCommandCenter true noon)) blank
           ltac:(reflexivity) ltac:(vm_compute; lia)).
Defined.

(** ** Severities in the store *)

(** X6: the script itself writes no severity outside [error], [success] and
    [info]: when every alert of the list a session starts from (the seed,
    when it starts without one) carries one of the three, so does every
    alert of the store the session ends with. *)
Theorem session_keeps_severities (r : Rerun) (rs : list Rerun) (w : World) :
  Forall (λ a, type a ∈ ["error"; "success"; "info"]) (base_alerts w) →
  ∃ w' l, session (r :: rs) w = Some w'
    ∧ alerts_of w' = Some l
    ∧ Forall (λ a, type a ∈ ["error"; "success"; "info"]) l.
Proof.
  intros Hbase. rewrite session_run. eexists _, _.
  split; [done |]. split; [apply lookup_insert_eq |].
  apply Forall_app. split; [| done].
  apply Forall_reverse, Forall_fmap, Forall_forall. intros clock _.
  simpl. apply list_elem_of_here.
Qed.

Lemma session_keeps_severities_witness :
  ∃ w' l,
    session [mkRerun LiveCommandCenter true noon; mkRerun AIAnalytics true noon]
      blank = Some w'
    ∧ alerts_of w' = Some l
    ∧ Forall (λ a, type a ∈ ["error"; "success"; "info"]) l.
Proof.
  refine (session_keeps_severities (mkRerun LiveCommandCenter true noon)
            [mkRerun AIAnalytics true noon] blank _).
  repeat constructor.
Defined.

(** ** The clock reading of an alert *)

Lemma digit_inj a b : a < 10 → b < 10 → digit a = digit b → a = b.
Proof.
  intros Ha Hb H. apply (f_equal Ascii.nat_of_ascii) in H. unfold digit in H.
  rewrite !Ascii.nat_ascii_embedding in H by lia. lia.
Qed.

Lemma digit_is_digit k : k < 10 → is_digit (digit k) = true.
Proof.
  intros Hk. unfold is_digit, digit.
  rewrite Ascii.nat_ascii_embedding by lia.
  apply andb_true_intro. split; apply Nat.leb_le; lia.
Qed.

Lemma tens_lt n : n < 100 → n / 10 < 10.
Proof. intros Hn. apply Nat.Div0.div_lt_upper_bound. lia. Qed.

Lemma units_lt n : n mod 10 < 10.
Proof. apply Nat.mod_upper_bound. lia. Qed.

Lemma two_digits_inj n m : n < 100 → m < 100 → two_digits n = two_digits m → n = m.
Proof.
  intros Hn Hm H. unfold two_digits in H.
  assert (Ht : n / 10 = m / 10)
    by (apply digit_inj; [by apply tens_lt.. | congruence]).
  assert (Hu : n mod 10 = m mod 10)
    by (apply digit_inj; [apply units_lt.. | congruence]).
  by rewrite (Nat.div_mod_eq n 10), (Nat.div_mod_eq m 10), Ht, Hu.
Qed.

Lemma two_digits_app_inj n m s t :
  two_digits n +:+ s = two_digits m +:+ t → two_digits n = two_digits m ∧ s = t.
Proof.
  unfold two_digits.
  generalize (digit (n / 10)), (digit (n mod 10)), (digit (m / 10)),
    (digit (m mod 10)).
  intros a b c d H. injection H as -> -> H. split; [done | exact H].
Qed.

Lemma colon_app_inj s t : ":" +:+ s = ":" +:+ t → s = t.
Proof. intros H. injection H as H. exact H. Qed.

Lemma strftime_HMS_inj d1 d2 :
  valid_clock d1 → valid_clock d2 → strftime_HMS d1 = strftime_HMS d2 → d1 = d2.
Proof.
  destruct d1 as [h1 m1 s1], d2 as [h2 m2 s2].
  unfold valid_clock, strftime_HMS. simpl hour. simpl minute. simpl second.
  intros (Hh1 & Hm1 & Hs1) (Hh2 & Hm2 & Hs2) H.
  apply two_digits_app_inj in H as [Hh H]. apply colon_app_inj in H.
  apply two_digits_app_inj in H as [Hm H]. apply colon_app_inj in H.
  f_equal; apply two_digits_inj; (lia || done).
Qed.

Lemma strftime_HMS_length d : String.length (strftime_HMS d) = 8.
Proof. reflexivity. Qed.

Lemma append_inj_length s1 s2 t1 t2 :
  String.length s1 = String.length s2 →
  s1 +:+ t1 = s2 +:+ t2 → s1 = s2 ∧ t1 = t2.
Proof.
  revert s2. induction s1 as [| c s1 IH]; intros [| c' s2] L H;
    try discriminate L.
  - done.
  - injection L as L. injection H as -> H.
    destruct (IH _ L H) as [-> ->]. done.
Qed.

Lemma surge_row_inj s1 s2 :
  String.length s1 = String.length s2 →
  st_error ("**" +:+ s1 +:+ "** | Density Spike: Gate 4")
  = st_error ("**" +:+ s2 +:+ "** | Density Spike: Gate 4") →
  s1 = s2.
Proof.
  intros L H. injection H as H.
  by destruct (append_inj_length s1 s2 _ _ L H) as [-> _].
Qed.

Lemma same_fields d1 d2 :
  d1 = d2 ↔ hour d1 = hour d2 ∧ minute d1 = minute d2 ∧ second d1 = second d2.
Proof.
  split; [by intros -> |].
  destruct d1, d2. simpl. by intros (-> & -> & ->).
Qed.

(** X7: the time stamp of line 117 keeps the hour, the minute and the second
    of the clock reading and nothing else of it (not the date, not the
    fraction of a second): for two readings that a [datetime] can hold, the
    time stamps, the new alerts and their rows in the feed are equal exactly
    when the two readings have the same hour, minute and second. *)
Theorem surge_row_tells_clock (d1 d2 : datetime) :
  valid_clock d1 → valid_clock d2 →
  (strftime_HMS d1 = strftime_HMS d2
   ↔ hour d1 = hour d2 ∧ minute d1 = minute d2 ∧ second d1 = second d2)
  ∧ (new_alert d1 = new_alert d2
     ↔ hour d1 = hour d2 ∧ minute d1 = minute d2 ∧ second d1 = second d2)
  ∧ (feed_row (new_alert d1) = feed_row (new_alert d2)
     ↔ hour d1 = hour d2 ∧ minute d1 = minute d2 ∧ second d1 = second d2).
Proof.
  intros V1 V2. rewrite <- !same_fields.
  assert (Hfmt : strftime_HMS d1 = strftime_HMS d2 ↔ d1 = d2)
    by (split; [by apply strftime_HMS_inj | by intros ->]).
  split; [done |]. split.
  - split; [| by intros ->]. intros H. apply Hfmt. exact (f_equal time H).
  - split; [| by intros ->]. rewrite !feed_row_new_alert. intros H.
    apply Hfmt. revert H. apply surge_row_inj.
    by rewrite !strftime_HMS_length.
Qed.

Lemma surge_row_tells_clock_witness :
  (strftime_HMS noon = strftime_HMS (mkDatetime 9 30 0)
   ↔ 12 = 9 ∧ 0 = 30 ∧ 0 = 0)
  ∧ (new_alert noon = new_alert (mkDatetime 9 30 0)
     ↔ 12 = 9 ∧ 0 = 30 ∧ 0 = 0)
  ∧ (feed_row (new_alert noon) = feed_row (new_alert (mkDatetime 9 30 0))
     ↔ 12 = 9 ∧ 0 = 30 ∧ 0 = 0).
Proof.
  refine (surge_row_tells_clock noon (mkDatetime 9 30 0) _ _);
    unfold valid_clock; simpl; lia.
Defined.

(** X8: for a clock reading that a [datetime] can hold, the time stamp of
    an alert is two digits, a colon, two digits, a colon and two digits:
    eight characters, each field zero padded. *)
Theorem strftime_HMS_shape (d : datetime) :
  valid_clock d →
  ∃ h1 h2 m1 m2 s1 s2,
    strftime_HMS d
    = String h1 (String h2 (":" +:+
        String m1 (String m2 (":" +:+
          String s1 (String s2 EmptyString)))))
    ∧ Forall (λ c, is_digit c = true) [h1; h2; m1; m2; s1; s2].
Proof.
  intros (Hh & Hm & Hs).
  exists (digit (hour d / 10)), (digit (hour d mod 10)),
    (digit (minute d / 10)), (digit (minute d mod 10)),
    (digit (second d / 10)), (digit (second d mod 10)).
  split; [reflexivity |].
  repeat apply List.Forall_cons; try apply List.Forall_nil;
    apply digit_is_digit; (apply units_lt || (apply tens_lt; lia)).
Qed.

Lemma strftime_HMS_shape_witness :
  ∃ h1 h2 m1 m2 s1 s2,
    strftime_HMS (mkDatetime 7 5 9)
    = String h1 (String h2 (":" +:+
        String m1 (String m2 (":" +:+
          String s1 (String s2 EmptyString)))))
    ∧ Forall (λ c, is_digit c = true) [h1; h2; m1; m2; s1; s2].
Proof.
  refine (strftime_HMS_shape (mkDatetime 7 5 9) _).
  unfold valid_clock. simpl. lia.
Defined.

(** ** What a row tells of its alert *)

Lemma row_text_inj a b :
  String.length (time a) = String.length (time b) →
  row_text a = row_text b → time a = time b ∧ msg a = msg b.
Proof.
  intros L H. unfold row_text in H.
  apply (append_inj_length "**" "**") in H as [_ H]; [| done].
  apply (append_inj_length _ _ _ _ L) in H as [Ht H].
  apply (append_inj_length "** | " "** | ") in H as [_ H]; done.
Qed.

(** X9: two alerts whose time stamps are equally long and that are written
    as the same row have the same time stamp and the same message, and
    either both are errors or neither is, and likewise for successes: the
    row loses only the difference between the severities that fall to the
    info box. *)
Theorem feed_row_tells_alert (a b : Alert) :
  String.length (time a) = String.length (time b) →
  feed_row a = feed_row b →
  time a = time b ∧ msg a = msg b
  ∧ (type a = "error" ↔ type b = "error")
  ∧ (type a = "success" ↔ type b = "success").
Proof.
  intros L. unfold feed_row.
  destruct (String.eqb_spec (type a) "error") as [Ea | Ea],
    (String.eqb_spec (type b) "error") as [Eb | Eb];
    [| try destruct (String.eqb_spec (type b) "success") as [Sb | Sb]
     | try destruct (String.eqb_spec (type a) "success") as [Sa | Sa]
     | destruct (String.eqb_spec (type a) "success") as [Sa | Sa],
         (String.eqb_spec (type b) "success") as [Sb | Sb] ];
    intros H; try discriminate H;
    (assert (Hrow : row_text a = row_text b) by congruence);
    destruct (row_text_inj a b L Hrow) as [Ht Hm];
    (split; [done |]); (split; [done |]);
    split; split; intros; first [done | congruence].
Qed.

Lemma feed_row_tells_alert_witness :
  time sensor_node = time (mkAlert "19:10:05" "Sensor Node 14 Active" "warning")
  ∧ msg sensor_node = msg (mkAlert "19:10:05" "Sensor Node 14 Active" "warning")
  ∧ (type sensor_node = "error"
     ↔ type (mkAlert "19:10:05" "Sensor Node 14 Active" "warning") = "error")
  ∧ (type sensor_node = "success"
     ↔ type (mkAlert "19:10:05" "Sensor Node 14 Active" "warning") = "success").
Proof.
  exact (feed_row_tells_alert sensor_node
           (mkAlert "19:10:05" "Sensor Node 14 Active" "warning")
           ltac:(reflexivity) ltac:(reflexivity)).
Defined.

(** Without time stamps of one length the row can be read in two ways. *)
Example row_text_ambiguous :
  row_text (mkAlert "1" "** | 2" "info") = row_text (mkAlert "1** | " "2" "info").
Proof. reflexivity. Qed.
